(** * PyLabRobot plate reader front end

    A shallow embedding of [pylabrobot/plate_reading/plate_reader.py]: the
    single-plate slot of [PlateReader], the keyword-argument check
    [_check_args] that inspects the signature of the installed backend's
    method, and the three read operations together with [open] and [close].

    Python sets are [gset string], insertion-ordered dictionaries are
    association lists, exceptions are values of [Exception], and the methods
    of [PlateReader] are computations in a state-and-exception monad over the
    instance. *)

From Stdlib Require Import ZArith.
From stdpp Require Import base option list sets gmap strings.

Local Open Scope string_scope.

(** ** Python values shared by the front end and the backends *)

(** [inspect.Parameter.kind]. *)
Inductive ParameterKind :=
| POSITIONAL_ONLY
| POSITIONAL_OR_KEYWORD
| VAR_POSITIONAL
| KEYWORD_ONLY
| VAR_KEYWORD.

#[global] Instance ParameterKind_eq_dec : EqDecision ParameterKind.
Proof. solve_decision. Defined.

(** The exceptions that cross the front end.  An f-string that interpolates
    a set, as in [TypeError(f"Missing required arguments: {missing}")], is
    kept as the text before the set and the set itself. *)
Inductive Exception :=
| ValueError (msg : string)
| NoPlateError (msg : string)
| TypeError (msg : string) (names : gset string)
| KeyError (key : string)
| IndexError (msg : string)
| LifecycleNotReadyError
| OtherException (msg : string).

(** [pylabrobot.resources]: the only thing the plate reader asks of a
    resource is whether it is a [Plate]. *)
Inductive Resource :=
| Plate (name : string)
| NonPlate (name : string).

(** [isinstance(resource, Plate)] *)
Definition isinstance_Plate (resource : Resource) : bool :=
  match resource with
  | Plate _ => true
  | NonPlate _ => false
  end.

(** A [dict] with string keys, in insertion order. *)
Definition Dict (V : Type) : Type := list (string * V).

(** [d.keys()] *)
Definition keys {V} (d : Dict V) : list string := d.*1.

(** [d.pop(key)]: [KeyError] when the key is absent. *)
Definition pop {V} (key : string) (d : Dict V) : Exception + Dict V :=
  if decide (key ∈ keys d)
  then inr (filter (λ kv, kv.1 ≠ key) d)
  else inl (KeyError key).

(** ** Signatures, as [inspect.signature] reports them *)

Section Signature.
Context {Any : Type}.

(** [inspect.Parameter] (a reserved word here, hence [Param]);
    [default = None] stands for [inspect.Parameter.empty]. *)
Record Param := {
  kind : ParameterKind;
  default : option Any;
}.

(** [param.default == inspect.Parameter.empty] *)
Definition default_is_empty (param : Param) : bool :=
  match default param with
  | None => true
  | Some _ => false
  end.

(** [inspect.Signature]: [parameters] is the ordered mapping from names to
    parameters. *)
Record Signature := {
  parameters : Dict Param;
}.
End Signature.

Arguments Param : clear implicits.
Arguments Signature : clear implicits.

(** ** The backend, an external collaborator *)

Module PlateReaderBackend.
Section Backend.
Context {float Any : Type}.

(** One invocation of a backend method, with the keyword arguments it
    received. *)
Inductive call :=
| Open
| Close
| Read_luminescence (focal_height : float) (plate : Resource)
    (backend_kwargs : Dict Any)
| Read_absorbance (wavelength : Z) (plate : Resource)
    (backend_kwargs : Dict Any)
| Read_fluorescence (excitation_wavelength emission_wavelength : Z)
    (focal_height : float) (plate : Resource) (backend_kwargs : Dict Any).

(** A backend is any object with these five methods.  Each read method
    comes with the signature that [inspect.signature] finds on it; what a
    method answers may depend on the calls the backend received before. *)
Record t := {
  open : list call → Exception + unit;
  close : list call → Exception + unit;
  signature_read_luminescence : Signature Any;
  read_luminescence :
    list call → float → Resource → Dict Any → Exception + list (list float);
  signature_read_absorbance : Signature Any;
  read_absorbance :
    list call → Z → Resource → Dict Any → Exception + list (list float);
  signature_read_fluorescence : Signature Any;
  read_fluorescence :
    list call → Z → Z → float → Resource → Dict Any →
    Exception + list (list float);
}.
End Backend.

Arguments call : clear implicits.
Arguments t : clear implicits.
End PlateReaderBackend.

(** ** The front end *)

Module PlateReader.
Section Definitions.
Context {float Any : Type}.

(** [pylabrobot.resources.Coordinate] *)
Definition Coordinate : Type := float * float * float.

(** The instance: [children] comes from [ResourceHolder], [setup_finished]
    from [Machine].  [backend_calls] is the backend object's side of the
    story, the calls it has received so far, oldest first. *)
Record t := {
  children : list Resource;
  setup_finished : bool;
  backend : PlateReaderBackend.t float Any;
  backend_calls : list (PlateReaderBackend.call float Any);
}.

(** A method of the instance: it ends in an exception or a value, and in
    both cases leaves an instance behind. *)
Definition M (A : Type) : Type := t → (Exception + A) * t.

#[local] Instance M_ret : MRet M := λ A a self, (inr a, self).

#[local] Instance M_bind : MBind M := λ A B f m self,
  match m self with
  | (inl e, self') => (inl e, self')
  | (inr a, self') => f a self'
  end.

(** [raise e] *)
Definition raise {A} (e : Exception) : M A := λ self, (inl e, self).

(** The outcome of a function that does not touch the instance. *)
Definition lift {A} (r : Exception + A) : M A := λ self, (r, self).

(** [self.f] *)
Definition attr {A} (f : t → A) : M A := λ self, (inr (f self), self).

(** The instance after its backend has received the call [c]. *)
Definition received (c : PlateReaderBackend.call float Any) (self : t) : t :=
  {| children := children self;
     setup_finished := setup_finished self;
     backend := backend self;
     backend_calls := backend_calls self ++ [c] |}.

(** The instance with [cs] as its children. *)
Definition holding (cs : list Resource) (self : t) : t :=
  {| children := cs;
     setup_finished := setup_finished self;
     backend := backend self;
     backend_calls := backend_calls self |}.

(** [await method(...)] on the backend: the backend answers from what it
    has seen so far, and has then seen this call too. *)
Definition await {A} (c : PlateReaderBackend.call float Any)
    (method : list (PlateReaderBackend.call float Any) → Exception + A) : M A :=
  λ self, (method (backend_calls self), received c self).

(** Modelled from the spec: [Machine.__init__] and [ResourceHolder.__init__],
    which are not part of this file.  The slot starts empty at instrument
    construction and setup has not completed. *)
Definition __init__ (backend : PlateReaderBackend.t float Any) : t :=
  {| children := [];
     setup_finished := false;
     backend := backend;
     backend_calls := [] |}.

(** Modelled from the spec: [Machine.setup], which is not part of this file.
    It completes the setup that the lifecycle guard asks for. *)
Definition setup : M unit :=
  λ self,
    (inr (),
     {| children := children self;
        setup_finished := true;
        backend := backend self;
        backend_calls := backend_calls self |}).

(** Modelled from the spec: the decorator [need_setup_finished] of
    [pylabrobot.machines.machine], which is not part of this file.  It fails
    the call before it starts if the instrument has not completed setup. *)
Definition need_setup_finished {A} (func : M A) : M A :=
  λ self,
    if setup_finished self then func self
    else (inl LifecycleNotReadyError, self).

(** Modelled from the spec: [ResourceHolder.assign_child_resource], the
    generic multi-child assignment reached through [super()], which is not
    part of this file.  It stores the resource and returns success. *)
Definition super_assign_child_resource (resource : Resource)
    (location : option Coordinate) (reassign : bool) : M unit :=
  λ self, (inr (), holding (children self ++ [resource]) self).

Definition assign_child_resource (resource : Resource)
    (location : option Coordinate) (reassign : bool) : M unit :=
  cs ← attr children;
  if (1 <=? length cs)%nat
  then raise (ValueError "There already is a plate in the plate reader.")
  else if negb (isinstance_Plate resource)
  then raise (ValueError "The resource must be a Plate.")
  else super_assign_child_resource resource location reassign.

(** [cast(Plate, ...)] does nothing at run time. *)
Definition get_plate : M Resource :=
  cs ← attr children;
  if (length cs =? 0)%nat
  then raise (NoPlateError "There is no plate in the plate reader.")
  else
    match cs !! 0%nat with
    | Some plate => mret plate
    | None => raise (IndexError "list index out of range")
    end.

Definition open : M unit :=
  b ← attr backend;
  await PlateReaderBackend.Open (PlateReaderBackend.open b).

Definition close : M unit :=
  b ← attr backend;
  await PlateReaderBackend.Close (PlateReaderBackend.close b).

(** [method] is given by the signature that [inspect.signature] reads off
    it. *)
Definition _check_args (method : Signature Any) (backend_kwargs : Dict Any)
    (default : gset string) : Exception + gset string :=
  let default_args : gset string := default ∪ {["self"]} in
  let sig := method in
  let args :=
    filter (λ '(arg, param), arg ∉ default_args) (parameters sig) in
  let vars_keyword : gset string :=
    list_to_set
      (filter (λ '(arg, param), kind param = VAR_KEYWORD) (parameters sig)).*1
  in
  let args :=
    filter (λ '(arg, param), kind param ∉ [VAR_POSITIONAL; VAR_KEYWORD]) args
  in
  let non_default : gset string :=
    list_to_set (filter (λ '(arg, param), default_is_empty param) args).*1 in
  let backend_kws : gset string := list_to_set (keys backend_kwargs) in
  let missing := non_default ∖ backend_kws in
  if (0 <? size missing)%nat
  then inl (TypeError "Missing required arguments: " missing)
  else if (0 <? size vars_keyword)%nat
  then inr ∅
  else
    let extra := backend_kws ∖ list_to_set (keys args) in
    if (0 <? size extra)%nat && (size vars_keyword =? 0)%nat
    then inl (TypeError "Got unexpected keyword arguments: " extra)
    else inr extra.

(** [for arg in extra_args: backend_kwargs.pop(arg)] *)
Fixpoint pop_each (extra_args : list string) (backend_kwargs : Dict Any)
    : Exception + Dict Any :=
  match extra_args with
  | [] => inr backend_kwargs
  | arg :: extra_args' =>
      match pop arg backend_kwargs with
      | inl e => inl e
      | inr backend_kwargs' => pop_each extra_args' backend_kwargs'
      end
  end.

(** The keyword arguments of a call [f(k1=v1, ..., kn=vn, **backend_kwargs)].
    Python merges the dictionary into the keywords written out and raises a
    [TypeError] at the first key of the dictionary that repeats one of them,
    before [f] is entered. *)
Definition keyword_arguments (written_out : list string)
    (backend_kwargs : Dict Any) : Exception + Dict Any :=
  match List.find (λ k, bool_decide (k ∈ written_out)) (keys backend_kwargs) with
  | Some k => inl (TypeError "got multiple values for keyword argument " {[k]})
  | None => inr backend_kwargs
  end.

Definition read_luminescence (focal_height : float)
    (backend_kwargs : Dict Any) : M (list (list float)) :=
  need_setup_finished (
    plate ← get_plate;
    b ← attr backend;
    extra_args ← lift (_check_args
      (PlateReaderBackend.signature_read_luminescence b) backend_kwargs
      {["focal_height"; "plate"]});
    backend_kwargs ← lift (pop_each (elements extra_args) backend_kwargs);
    backend_kwargs ← lift
      (keyword_arguments ["focal_height"; "plate"] backend_kwargs);
    await (PlateReaderBackend.Read_luminescence focal_height plate backend_kwargs)
      (λ calls,
        PlateReaderBackend.read_luminescence b calls
          focal_height plate backend_kwargs)).

Definition read_absorbance (wavelength : Z)
    (backend_kwargs : Dict Any) : M (list (list float)) :=
  need_setup_finished (
    plate ← get_plate;
    b ← attr backend;
    extra_args ← lift (_check_args
      (PlateReaderBackend.signature_read_absorbance b) backend_kwargs
      {["wavelength"; "plate"]});
    backend_kwargs ← lift (pop_each (elements extra_args) backend_kwargs);
    backend_kwargs ← lift
      (keyword_arguments ["wavelength"; "plate"] backend_kwargs);
    await (PlateReaderBackend.Read_absorbance wavelength plate backend_kwargs)
      (λ calls,
        PlateReaderBackend.read_absorbance b calls
          wavelength plate backend_kwargs)).

Definition read_fluorescence (excitation_wavelength emission_wavelength : Z)
    (focal_height : float) (backend_kwargs : Dict Any)
    : M (list (list float)) :=
  need_setup_finished (
    plate ← get_plate;
    b ← attr backend;
    extra_args ← lift (_check_args
      (PlateReaderBackend.signature_read_fluorescence b) backend_kwargs
      {["excitation_wavelength"; "emission_wavelength"; "focal_height";
        "plate"]});
    backend_kwargs ← lift (pop_each (elements extra_args) backend_kwargs);
    backend_kwargs ← lift
      (keyword_arguments
         ["excitation_wavelength"; "emission_wavelength"; "focal_height";
          "plate"] backend_kwargs);
    await
      (PlateReaderBackend.Read_fluorescence excitation_wavelength
         emission_wavelength focal_height plate backend_kwargs)
      (λ calls,
        PlateReaderBackend.read_fluorescence b calls excitation_wavelength
          emission_wavelength focal_height plate backend_kwargs)).

End Definitions.

Arguments t : clear implicits.
Arguments M : clear implicits.

(** ** The spec's names for the failures *)

Definition MissingArgumentError (missing : gset string) : Exception :=
  TypeError "Missing required arguments: " missing.

Definition UnrecognizedArgumentError (extra : gset string) : Exception :=
  TypeError "Got unexpected keyword arguments: " extra.

Definition CapacityError : Exception :=
  ValueError "There already is a plate in the plate reader.".

Definition InvalidCarrierTypeError : Exception :=
  ValueError "The resource must be a Plate.".

Definition NoCarrierError : Exception :=
  NoPlateError "There is no plate in the plate reader.".

Section Reconciliation.
Context {Any : Type}.
Implicit Types (sig : Signature Any) (default : gset string).
Implicit Types (backend_kwargs : Dict Any) (arg : string).

(** [declares sig default arg param]: the signature has a parameter [arg]
    that the caller may address: not always supplied by the front end, not
    the receiver, and neither of the two variadic markers. *)
Definition declares sig default arg (param : Param Any) : Prop :=
  (arg, param) ∈ parameters sig ∧ (arg ∉ default) ∧ (arg ≠ "self") ∧
  (kind param ≠ VAR_POSITIONAL) ∧ (kind param ≠ VAR_KEYWORD).

(** A required parameter is a declared one without a default value. *)
Definition requires sig default arg : Prop :=
  ∃ param, declares sig default arg param ∧ default_is_empty param = true.

(** The signature accepts arbitrary extra keywords. *)
Definition accepts_extra_keywords sig : Prop :=
  ∃ arg param, (arg, param) ∈ parameters sig ∧ kind param = VAR_KEYWORD.

(** The local variables of [_check_args]. *)
Definition args_of sig default : Dict (Param Any) :=
  filter (λ '(arg, param), kind param ∉ [VAR_POSITIONAL; VAR_KEYWORD])
    (filter (λ '(arg, param), arg ∉ (default ∪ {["self"]} : gset string))
       (parameters sig)).

Definition vars_keyword_of sig : gset string :=
  list_to_set
    (filter (λ '(arg, param), kind param = VAR_KEYWORD) (parameters sig)).*1.

Definition non_default_of sig default : gset string :=
  list_to_set
    (filter (λ '(arg, param), default_is_empty param) (args_of sig default)).*1.

Definition missing_of sig default backend_kwargs : gset string :=
  non_default_of sig default ∖ list_to_set (keys backend_kwargs).

Definition extra_of sig default backend_kwargs : gset string :=
  list_to_set (keys backend_kwargs) ∖ list_to_set (keys (args_of sig default)).

End Reconciliation.

(** ** The three read operations, side by side *)

Section Facade.
Context {float Any : Type}.
Implicit Types (self : t float Any) (backend_kwargs : Dict Any).
Implicit Types (plate : Resource) (arg : string).

(** A read operation with the parameters the front end itself takes. *)
Inductive read_operation :=
| Luminescence (focal_height : float)
| Absorbance (wavelength : Z)
| Fluorescence (excitation_wavelength emission_wavelength : Z)
    (focal_height : float).

Definition read (op : read_operation) backend_kwargs
    : M float Any (list (list float)) :=
  match op with
  | Luminescence focal_height => read_luminescence focal_height backend_kwargs
  | Absorbance wavelength => read_absorbance wavelength backend_kwargs
  | Fluorescence excitation_wavelength emission_wavelength focal_height =>
      read_fluorescence excitation_wavelength emission_wavelength focal_height
        backend_kwargs
  end.

(** The signature that the operation hands to [_check_args]. *)
Definition signature_of (op : read_operation)
    (b : PlateReaderBackend.t float Any) : Signature Any :=
  match op with
  | Luminescence _ => PlateReaderBackend.signature_read_luminescence b
  | Absorbance _ => PlateReaderBackend.signature_read_absorbance b
  | Fluorescence _ _ _ => PlateReaderBackend.signature_read_fluorescence b
  end.

(** The [default] set that the operation hands to [_check_args]. *)
Definition always_supplied (op : read_operation) : gset string :=
  match op with
  | Luminescence _ => {["focal_height"; "plate"]}
  | Absorbance _ => {["wavelength"; "plate"]}
  | Fluorescence _ _ _ =>
      {["excitation_wavelength"; "emission_wavelength"; "focal_height";
        "plate"]}
  end.

(** The keywords that the operation writes out in its call of the backend. *)
Definition written_out (op : read_operation) : list string :=
  match op with
  | Luminescence _ => ["focal_height"; "plate"]
  | Absorbance _ => ["wavelength"; "plate"]
  | Fluorescence _ _ _ =>
      ["excitation_wavelength"; "emission_wavelength"; "focal_height";
       "plate"]
  end.

(** The call that reaches the backend. *)
Definition call_of (op : read_operation) plate backend_kwargs
    : PlateReaderBackend.call float Any :=
  match op with
  | Luminescence focal_height =>
      PlateReaderBackend.Read_luminescence focal_height plate backend_kwargs
  | Absorbance wavelength =>
      PlateReaderBackend.Read_absorbance wavelength plate backend_kwargs
  | Fluorescence excitation_wavelength emission_wavelength focal_height =>
      PlateReaderBackend.Read_fluorescence excitation_wavelength
        emission_wavelength focal_height plate backend_kwargs
  end.

(** What the backend answers to that call. *)
Definition answer_of (op : read_operation) self plate backend_kwargs
    : Exception + list (list float) :=
  match op with
  | Luminescence focal_height =>
      PlateReaderBackend.read_luminescence (backend self) (backend_calls self)
        focal_height plate backend_kwargs
  | Absorbance wavelength =>
      PlateReaderBackend.read_absorbance (backend self) (backend_calls self)
        wavelength plate backend_kwargs
  | Fluorescence excitation_wavelength emission_wavelength focal_height =>
      PlateReaderBackend.read_fluorescence (backend self) (backend_calls self)
        excitation_wavelength emission_wavelength focal_height plate
        backend_kwargs
  end.

(** The operations of the front end, for sequences of them. *)
Inductive operation :=
| Setup
| Assign_child_resource (resource : Resource)
    (location : option (Coordinate (float:=float))) (reassign : bool)
| Get_plate
| Open
| Close
| Read (op : read_operation) (backend_kwargs : Dict Any).

(** The instance an operation leaves behind, whether it raised or not. *)
Definition after (o : operation) self : t float Any :=
  match o with
  | Setup => (setup self).2
  | Assign_child_resource resource location reassign =>
      (assign_child_resource resource location reassign self).2
  | Get_plate => (get_plate self).2
  | Open => (open self).2
  | Close => (close self).2
  | Read op backend_kwargs => (read op backend_kwargs self).2
  end.

Definition after_all (os : list operation) self : t float Any :=
  foldl (λ self o, after o self) self os.

End Facade.

Arguments read_operation : clear implicits.
Arguments operation : clear implicits.

(** ** What a call hands to the backend *)

Section Calls.
Context {float Any : Type}.

(** The plate that a call carries, if it carries one. *)
Definition plate_of_call (c : PlateReaderBackend.call float Any)
    : option Resource :=
  match c with
  | PlateReaderBackend.Open | PlateReaderBackend.Close => None
  | PlateReaderBackend.Read_luminescence _ plate _
  | PlateReaderBackend.Read_absorbance _ plate _
  | PlateReaderBackend.Read_fluorescence _ _ _ plate _ => Some plate
  end.

(** The failures that a read operation raises itself. *)
Definition raised_by_front_end (e : Exception) : Prop :=
  e = LifecycleNotReadyError ∨ e = NoCarrierError ∨
  ∃ msg names, e = TypeError msg names.

End Calls.

(** ** Example backends and instances *)

(** Readings and keyword values are integers in the examples. *)
Definition required_parameter : Param Z :=
  {| kind := POSITIONAL_OR_KEYWORD; default := None |}.

Definition variadic_keyword : Param Z :=
  {| kind := VAR_KEYWORD; default := None |}.

(** [def read_luminescence(self, plate, focal_height)], seen through the
    bound method, which hides [self]. *)
Definition sig_luminescence : Signature Z :=
  {| parameters :=
       [("plate", required_parameter); ("focal_height", required_parameter)] |}.

(** [def read_luminescence(self, plate, focal_height, **kwargs)] *)
Definition sig_luminescence_kwargs : Signature Z :=
  {| parameters :=
       [("plate", required_parameter); ("focal_height", required_parameter);
        ("kwargs", variadic_keyword)] |}.

(** [def read_absorbance(self, plate, wavelength)] *)
Definition sig_absorbance : Signature Z :=
  {| parameters :=
       [("plate", required_parameter); ("wavelength", required_parameter)] |}.

(** [def read_absorbance(self, plate, wavelength, gain)] *)
Definition sig_absorbance_gain : Signature Z :=
  {| parameters :=
       [("plate", required_parameter); ("wavelength", required_parameter);
        ("gain", required_parameter)] |}.

(** [def read_absorbance(self, plate, wavelength, **kwargs)] *)
Definition sig_absorbance_kwargs : Signature Z :=
  {| parameters :=
       [("plate", required_parameter); ("wavelength", required_parameter);
        ("kwargs", variadic_keyword)] |}.

(** [def read_fluorescence(self, plate, excitation_wavelength,
    emission_wavelength, focal_height)] *)
Definition sig_fluorescence : Signature Z :=
  {| parameters :=
       [("plate", required_parameter);
        ("excitation_wavelength", required_parameter);
        ("emission_wavelength", required_parameter);
        ("focal_height", required_parameter)] |}.

(** A backend with the given signatures that answers every read with the
    same two-by-two grid. *)
Definition example_backend (luminescence absorbance : Signature Z)
    : PlateReaderBackend.t Z Z :=
  {| PlateReaderBackend.open := λ _, inr ();
     PlateReaderBackend.close := λ _, inr ();
     PlateReaderBackend.signature_read_luminescence := luminescence;
     PlateReaderBackend.read_luminescence := λ _ _ _ _, inr [[1; 2]; [3; 4]]%Z;
     PlateReaderBackend.signature_read_absorbance := absorbance;
     PlateReaderBackend.read_absorbance := λ _ _ _ _, inr [[1; 2]; [3; 4]]%Z;
     PlateReaderBackend.signature_read_fluorescence := sig_fluorescence;
     PlateReaderBackend.read_fluorescence :=
       λ _ _ _ _ _ _, inr [[1; 2]; [3; 4]]%Z |}.

Definition strict_backend : PlateReaderBackend.t Z Z :=
  example_backend sig_luminescence sig_absorbance.

Definition gain_backend : PlateReaderBackend.t Z Z :=
  example_backend sig_luminescence sig_absorbance_gain.

Definition kwargs_backend : PlateReaderBackend.t Z Z :=
  example_backend sig_luminescence_kwargs sig_absorbance_kwargs.

(** A reader after setup, holding the given resources. *)
Definition ready (b : PlateReaderBackend.t Z Z) (cs : list Resource) : t Z Z :=
  {| children := cs;
     setup_finished := true;
     backend := b;
     backend_calls := [] |}.

(** ** Facts about [_check_args] *)

Section ReconciliationFacts.
Context {Any : Type}.
Implicit Types (sig : Signature Any) (default : gset string).
Implicit Types (backend_kwargs : Dict Any) (arg : string).

Lemma _check_args_unfold sig backend_kwargs default :
  _check_args sig backend_kwargs default =
  if (0 <? size (missing_of sig default backend_kwargs))%nat
  then inl (MissingArgumentError (missing_of sig default backend_kwargs))
  else if (0 <? size (vars_keyword_of sig))%nat
  then inr ∅
  else
    if (0 <? size (extra_of sig default backend_kwargs))%nat
       && (size (vars_keyword_of sig) =? 0)%nat
    then inl (UnrecognizedArgumentError (extra_of sig default backend_kwargs))
    else inr (extra_of sig default backend_kwargs).
Proof. reflexivity. Qed.

Lemma size_pos_iff (X : gset string) : (0 <? size X)%nat = true ↔ X ≠ ∅.
Proof.
  rewrite Nat.ltb_lt. split.
  - intros Hlt ->. rewrite size_empty in Hlt. lia.
  - intros Hne. destruct (decide (size X = 0)) as [H0|H0]; [|lia].
    apply size_empty_iff in H0. by apply leibniz_equiv in H0.
Qed.

Lemma size_pos_false_iff (X : gset string) : (0 <? size X)%nat = false ↔ X = ∅.
Proof.
  rewrite <- not_true_iff_false, size_pos_iff.
  split; [apply dec_stable | by intros -> ?].
Qed.

Lemma elem_of_args_of sig default arg param :
  (arg, param) ∈ args_of sig default ↔ declares sig default arg param.
Proof.
  unfold args_of, declares. rewrite !list_elem_of_filter. simpl.
  rewrite !not_elem_of_cons, not_elem_of_union, not_elem_of_singleton.
  pose proof (not_elem_of_nil (kind param)). tauto.
Qed.

Lemma elem_of_keys_args_of sig default arg :
  arg ∈ keys (args_of sig default) ↔ ∃ param, declares sig default arg param.
Proof.
  unfold keys. rewrite list_elem_of_fmap. split.
  - intros [[a param] [-> Hin]]. exists param. by apply elem_of_args_of.
  - intros [param Hd]. exists (arg, param). split; [done|].
    by apply elem_of_args_of.
Qed.

Lemma elem_of_non_default_of sig default arg :
  arg ∈ non_default_of sig default ↔ requires sig default arg.
Proof.
  unfold non_default_of, requires.
  rewrite elem_of_list_to_set, list_elem_of_fmap. split.
  - intros [[a param] [-> [He Hin]%list_elem_of_filter]]. exists param.
    split; [by apply elem_of_args_of | by apply Is_true_true].
  - intros [param [Hd He]]. exists (arg, param). split; [done|].
    apply list_elem_of_filter.
    split; [by apply Is_true_true | by apply elem_of_args_of].
Qed.

Lemma vars_keyword_of_nonempty sig :
  vars_keyword_of sig ≠ ∅ ↔ accepts_extra_keywords sig.
Proof.
  unfold vars_keyword_of, accepts_extra_keywords. split.
  - intros Hne. apply set_choose_L in Hne as [arg Harg].
    apply elem_of_list_to_set, list_elem_of_fmap in Harg
      as [[a param] [-> [Hk Hin]%list_elem_of_filter]].
    by exists a, param.
  - intros (arg & param & Hin & Hk) Hempty.
    assert (arg ∈ (∅ : gset string)) as Habs; [|set_solver].
    rewrite <- Hempty. apply elem_of_list_to_set, list_elem_of_fmap.
    exists (arg, param). split; [done|]. by apply list_elem_of_filter.
Qed.

Lemma elem_of_missing_of sig default backend_kwargs arg :
  arg ∈ missing_of sig default backend_kwargs ↔
  requires sig default arg ∧ arg ∉ keys backend_kwargs.
Proof.
  unfold missing_of.
  by rewrite elem_of_difference, elem_of_non_default_of, elem_of_list_to_set.
Qed.

Lemma elem_of_extra_of sig default backend_kwargs arg :
  arg ∈ extra_of sig default backend_kwargs ↔
  arg ∈ keys backend_kwargs ∧ ¬ ∃ param, declares sig default arg param.
Proof.
  unfold extra_of.
  by rewrite elem_of_difference, !elem_of_list_to_set, elem_of_keys_args_of.
Qed.

(** The four ways [_check_args] can end. *)
Lemma _check_args_cases sig backend_kwargs default :
  let missing := missing_of sig default backend_kwargs in
  let extra := extra_of sig default backend_kwargs in
  let result := _check_args sig backend_kwargs default in
  (missing ≠ ∅ ∧ result = inl (MissingArgumentError missing)) ∨
  (missing = ∅ ∧ accepts_extra_keywords sig ∧ result = inr ∅) ∨
  (missing = ∅ ∧ ¬ accepts_extra_keywords sig ∧ extra ≠ ∅ ∧
     result = inl (UnrecognizedArgumentError extra)) ∨
  (missing = ∅ ∧ ¬ accepts_extra_keywords sig ∧ extra = ∅ ∧ result = inr ∅).
Proof.
  intros missing extra result. subst result.
  rewrite _check_args_unfold. fold missing extra.
  destruct (0 <? size missing)%nat eqn:Hm.
  { left. by apply size_pos_iff in Hm. }
  apply size_pos_false_iff in Hm. right.
  destruct (0 <? size (vars_keyword_of sig))%nat eqn:Hv.
  { left. apply size_pos_iff, vars_keyword_of_nonempty in Hv. done. }
  apply size_pos_false_iff in Hv. right.
  assert (¬ accepts_extra_keywords sig) as Hno.
  { intros Hacc. by apply vars_keyword_of_nonempty in Hacc. }
  rewrite Hv, size_empty. simpl. rewrite andb_true_r.
  destruct (0 <? size extra)%nat eqn:He.
  - left. by apply size_pos_iff in He.
  - right. apply size_pos_false_iff in He. by rewrite He.
Qed.

(** Whenever [_check_args] returns, the set it returns is empty. *)
Lemma _check_args_returns_empty sig backend_kwargs default extra_args :
  _check_args sig backend_kwargs default = inr extra_args → extra_args = ∅.
Proof.
  intros Hret.
  destruct (_check_args_cases sig backend_kwargs default)
    as [[_ H]|[(_ & _ & H)|[(_ & _ & _ & H)|(_ & _ & _ & H)]]];
    rewrite H in Hret; congruence.
Qed.

End ReconciliationFacts.

(** ** Facts about the front end *)

Section FacadeFacts.
Context {float Any : Type}.
Implicit Types (self : t float Any) (backend_kwargs : Dict Any).
Implicit Types (plate : Resource) (arg : string) (op : read_operation float).

Lemma received_neq c self : received c self ≠ self.
Proof.
  intros Heq. apply (f_equal backend_calls) in Heq. simpl in Heq.
  apply (f_equal length) in Heq. rewrite length_app in Heq. simpl in Heq. lia.
Qed.

Lemma keyword_arguments_disjoint (written : list string) backend_kwargs :
  Forall (λ k, k ∉ written) (keys backend_kwargs) →
  keyword_arguments written backend_kwargs = inr backend_kwargs.
Proof.
  intros Hdis. unfold keyword_arguments.
  destruct (List.find _ _) as [k|] eqn:Hfind; [|done].
  apply find_some in Hfind as [Hin Hk%bool_decide_eq_true].
  rewrite Forall_forall in Hdis. apply list_elem_of_In in Hin.
  by destruct (Hdis k Hin).
Qed.

Lemma keyword_arguments_clash (written : list string) backend_kwargs k :
  k ∈ keys backend_kwargs → k ∈ written →
  ∃ k', k' ∈ keys backend_kwargs ∧ k' ∈ written ∧
    keyword_arguments written backend_kwargs =
      inl (TypeError "got multiple values for keyword argument " {[k']}).
Proof.
  intros Hin Hw. unfold keyword_arguments.
  destruct (List.find _ _) as [k'|] eqn:Hfind.
  - apply find_some in Hfind as [Hin' Hk'%bool_decide_eq_true].
    exists k'. by rewrite list_elem_of_In.
  - apply list_elem_of_In in Hin.
    pose proof (find_none _ _ Hfind k Hin) as Hk. simpl in Hk.
    by apply bool_decide_eq_false in Hk.
Qed.

(** Once setup has finished and a plate is present, a read operation is
    [_check_args], then the merge of the keywords, then the backend. *)
Lemma read_ready op backend_kwargs self plate cs :
  setup_finished self = true → children self = plate :: cs →
  read op backend_kwargs self =
    match _check_args (signature_of op (backend self)) backend_kwargs
            (always_supplied op) with
    | inl e => (inl e, self)
    | inr _ =>
        match keyword_arguments (written_out op) backend_kwargs with
        | inl e => (inl e, self)
        | inr backend_kwargs' =>
            (answer_of op self plate backend_kwargs',
             received (call_of op plate backend_kwargs') self)
        end
    end.
Proof.
  intros Hsetup Hchildren.
  destruct op; simpl;
    unfold read_luminescence, read_absorbance, read_fluorescence,
      need_setup_finished;
    rewrite Hsetup;
    unfold get_plate, attr, lift, await, raise, mbind, M_bind, mret, M_ret;
    rewrite Hchildren; simpl;
    (destruct (_check_args _ _ _) as [e|extra_args] eqn:Hcheck; [done|]);
    apply _check_args_returns_empty in Hcheck as ->;
    rewrite elements_empty; simpl;
    by destruct (keyword_arguments _ _).
Qed.

Lemma read_before_setup op backend_kwargs self :
  setup_finished self = false →
  read op backend_kwargs self = (inl LifecycleNotReadyError, self).
Proof.
  intros Hsetup.
  destruct op; simpl;
    unfold read_luminescence, read_absorbance, read_fluorescence,
      need_setup_finished;
    by rewrite Hsetup.
Qed.

Lemma read_without_plate op backend_kwargs self :
  setup_finished self = true → children self = [] →
  read op backend_kwargs self = (inl NoCarrierError, self).
Proof.
  intros Hsetup Hchildren.
  destruct op; simpl;
    unfold read_luminescence, read_absorbance, read_fluorescence,
      need_setup_finished;
    rewrite Hsetup;
    unfold get_plate, attr, raise, mbind, M_bind;
    by rewrite Hchildren.
Qed.

(** ** Argument reconciliation *)

(** C1.  [_check_args] fails with the missing-arguments [TypeError] exactly
    when the signature has a required parameter (declared, without default)
    that is absent from the caller's keyword arguments, whether or not the
    signature also takes arbitrary keywords, and the error names exactly
    those parameters.  A read operation that has passed the setup and plate
    checks fails in the same way, with the instance and so the backend left
    untouched; called without extras, it fails so exactly when the signature
    has a required parameter of its own. *)
Theorem missing_required_arguments :
  (∀ (sig : Signature Any) backend_kwargs (default : gset string),
     ((∃ missing,
         _check_args sig backend_kwargs default =
           inl (MissingArgumentError missing)) ↔
      (∃ arg, requires sig default arg ∧ arg ∉ keys backend_kwargs)) ∧
     (∀ missing,
        _check_args sig backend_kwargs default =
          inl (MissingArgumentError missing) →
        ∀ arg,
          arg ∈ missing ↔ requires sig default arg ∧ arg ∉ keys backend_kwargs))
  ∧
  (∀ op self,
     setup_finished self = true → children self ≠ [] →
     (∀ backend_kwargs missing,
        _check_args (signature_of op (backend self)) backend_kwargs
          (always_supplied op) = inl (MissingArgumentError missing) →
        read op backend_kwargs self = (inl (MissingArgumentError missing), self))
     ∧
     ((∃ missing,
         read op [] self = (inl (MissingArgumentError missing), self)) ↔
      (∃ arg,
         requires (signature_of op (backend self)) (always_supplied op) arg))).
Proof.
  assert (∀ (sig : Signature Any) backend_kwargs (default : gset string),
    (∃ missing,
       _check_args sig backend_kwargs default =
         inl (MissingArgumentError missing)) ↔
    (∃ arg, requires sig default arg ∧ arg ∉ keys backend_kwargs)) as Hiff.
  { intros sig backend_kwargs default. split.
    - intros [missing Hfail].
      destruct (_check_args_cases sig backend_kwargs default)
        as [[Hne H]|[(_ & _ & H)|[(_ & _ & _ & H)|(_ & _ & _ & H)]]];
        rewrite H in Hfail; try discriminate.
      apply set_choose_L in Hne as [arg Harg]. exists arg.
      by apply elem_of_missing_of.
    - intros [arg Harg%elem_of_missing_of].
      exists (missing_of sig default backend_kwargs).
      destruct (_check_args_cases sig backend_kwargs default)
        as [[_ H]|[(He & _)|[(He & _)|(He & _)]]];
        [done|rewrite He in Harg; set_solver..]. }
  split.
  - intros sig backend_kwargs default. split; [apply Hiff|].
    intros missing Hfail arg.
    destruct (_check_args_cases sig backend_kwargs default)
      as [[_ H]|[(_ & _ & H)|[(_ & _ & _ & H)|(_ & _ & _ & H)]]];
      rewrite H in Hfail; try discriminate.
    injection Hfail as <-. apply elem_of_missing_of.
  - intros op self Hsetup Hchildren.
    destruct (children self) as [|plate cs] eqn:Hcs; [done|]. split.
    + intros backend_kwargs missing Hfail.
      by rewrite (read_ready _ _ _ _ _ Hsetup Hcs), Hfail.
    + rewrite (read_ready _ _ _ _ _ Hsetup Hcs). split.
      * intros [missing Hread].
        destruct (_check_args _ _ _) as [e|?] eqn:Hcheck.
        -- injection Hread as ->.
           destruct (proj1 (Hiff _ _ _) (ex_intro _ missing Hcheck))
             as [arg [Hreq _]]. by exists arg.
        -- simpl in Hread. injection Hread as _ Habs.
           by apply received_neq in Habs.
      * intros [arg Hreq].
        destruct (proj2 (Hiff (signature_of op (backend self)) []
                    (always_supplied op))) as [missing Hfail].
        { exists arg. split; [done|]. apply not_elem_of_nil. }
        exists missing. by rewrite Hfail.
Qed.

(** C9.  [_check_args] looks at the caller's keyword arguments only through
    the set of their names: two dictionaries with the same keys, in whatever
    order (and with whatever values), end in the same error with the same
    named parameters or in the same returned set. *)
Theorem _check_args_order_independent (sig : Signature Any)
    (backend_kwargs1 backend_kwargs2 : Dict Any) (default : gset string) :
  (∀ arg, arg ∈ keys backend_kwargs1 ↔ arg ∈ keys backend_kwargs2) →
  _check_args sig backend_kwargs1 default =
  _check_args sig backend_kwargs2 default.
Proof.
  intros Hsame.
  assert ((list_to_set (keys backend_kwargs1) : gset string) =
          list_to_set (keys backend_kwargs2)) as Hkws.
  { apply set_eq. intros arg. by rewrite !elem_of_list_to_set. }
  rewrite !_check_args_unfold. unfold missing_of, extra_of. by rewrite Hkws.
Qed.

(** C2, as amended.  For a signature that does not take arbitrary keywords
    and a caller who supplies every required parameter, a keyword argument
    that the signature does not declare makes [_check_args] fail with the
    unexpected-keywords [TypeError], which names exactly the undeclared
    keys; a read operation that has passed the setup and plate checks then
    fails with that error and leaves the instance, and so the backend,
    untouched. *)
Theorem unrecognized_arguments (sig : Signature Any) backend_kwargs
    (default : gset string) :
  ¬ accepts_extra_keywords sig →
  (∀ arg, requires sig default arg → arg ∈ keys backend_kwargs) →
  (∃ arg, arg ∈ keys backend_kwargs ∧ ¬ ∃ param, declares sig default arg param) →
  ∃ extra,
    (∀ arg,
       arg ∈ extra ↔
       arg ∈ keys backend_kwargs ∧ ¬ ∃ param, declares sig default arg param) ∧
    _check_args sig backend_kwargs default =
      inl (UnrecognizedArgumentError extra) ∧
    (∀ op self,
       signature_of op (backend self) = sig → always_supplied op = default →
       setup_finished self = true → children self ≠ [] →
       read op backend_kwargs self =
         (inl (UnrecognizedArgumentError extra), self)).
Proof.
  intros Hno Hreq [arg Harg%elem_of_extra_of].
  exists (extra_of sig default backend_kwargs).
  assert (_check_args sig backend_kwargs default =
          inl (UnrecognizedArgumentError (extra_of sig default backend_kwargs)))
    as Hfail.
  { destruct (_check_args_cases sig backend_kwargs default)
      as [[Hne _]|[(_ & Hacc & _)|[(_ & _ & _ & H)|(_ & _ & He & _)]]].
    - apply set_choose_L in Hne as [a [Ha Hout]%elem_of_missing_of].
      by destruct Hout; apply Hreq.
    - done.
    - done.
    - rewrite He in Harg. set_solver. }
  split; [intros a; apply elem_of_extra_of|]. split; [done|].
  intros op self <- <- Hsetup Hchildren.
  destruct (children self) as [|plate cs] eqn:Hcs; [done|].
  by rewrite (read_ready _ _ _ _ _ Hsetup Hcs), Hfail.
Qed.

(** C3, as amended.  For a signature with a variadic-keyword parameter and a
    caller who supplies every required parameter, [_check_args] returns the
    empty set and so never fails over an unrecognized name.  A read operation
    that has passed the setup and plate checks then hands the caller's
    keyword arguments to the backend as they are, provided none of them
    repeats a keyword that the operation writes out itself ([plate] is the
    one a caller can pass); if one does, the call fails with a [TypeError]
    for the repeated keyword and the backend is not entered. *)
Theorem extra_keywords_forwarded (sig : Signature Any) backend_kwargs
    (default : gset string) :
  accepts_extra_keywords sig →
  (∀ arg, requires sig default arg → arg ∈ keys backend_kwargs) →
  _check_args sig backend_kwargs default = inr ∅ ∧
  (∀ extra,
     _check_args sig backend_kwargs default ≠
       inl (UnrecognizedArgumentError extra)) ∧
  (∀ op self plate cs,
     signature_of op (backend self) = sig → always_supplied op = default →
     setup_finished self = true → children self = plate :: cs →
     (Forall (λ k, k ∉ written_out op) (keys backend_kwargs) →
      read op backend_kwargs self =
        (answer_of op self plate backend_kwargs,
         received (call_of op plate backend_kwargs) self)) ∧
     (∀ k, k ∈ keys backend_kwargs → k ∈ written_out op →
      ∃ k', k' ∈ keys backend_kwargs ∧ k' ∈ written_out op ∧
        read op backend_kwargs self =
          (inl (TypeError "got multiple values for keyword argument " {[k']}),
           self))).
Proof.
  intros Hacc Hreq.
  assert (_check_args sig backend_kwargs default = inr ∅) as Hret.
  { destruct (_check_args_cases sig backend_kwargs default)
      as [[Hne _]|[(_ & _ & H)|[(_ & Hno & _)|(_ & Hno & _)]]]; [|done..].
    apply set_choose_L in Hne as [a [Ha Hout]%elem_of_missing_of].
    by destruct Hout; apply Hreq. }
  split; [done|]. split; [by rewrite Hret|].
  intros op self plate cs <- <- Hsetup Hcs.
  rewrite (read_ready _ _ _ _ _ Hsetup Hcs), Hret. split.
  - intros Hdis. by rewrite keyword_arguments_disjoint.
  - intros k Hin Hw.
    destruct (keyword_arguments_clash _ _ _ Hin Hw) as (k' & ? & ? & Hk').
    exists k'. by rewrite Hk'.
Qed.

(** C7, as amended.  A read operation that passes the setup check, finds a
    plate and passes [_check_args], and whose caller did not repeat a
    keyword that the operation writes out itself ([plate] is the one a
    caller can pass), calls the backend exactly once, with its own fixed
    parameters, the plate and all of the caller's keyword arguments (the set
    to remove is always empty), and returns what the backend answers,
    untouched. *)
Theorem read_forwards_to_backend op backend_kwargs self plate cs extra_args :
  setup_finished self = true →
  children self = plate :: cs →
  _check_args (signature_of op (backend self)) backend_kwargs
    (always_supplied op) = inr extra_args →
  Forall (λ k, k ∉ written_out op) (keys backend_kwargs) →
  extra_args = ∅ ∧
  (read op backend_kwargs self).1 = answer_of op self plate backend_kwargs ∧
  backend_calls (read op backend_kwargs self).2 =
    (backend_calls self ++ [call_of op plate backend_kwargs])%list ∧
  children (read op backend_kwargs self).2 = children self.
Proof.
  intros Hsetup Hcs Hcheck Hdis.
  rewrite (read_ready _ _ _ _ _ Hsetup Hcs), Hcheck,
    keyword_arguments_disjoint by done.
  by apply _check_args_returns_empty in Hcheck.
Qed.

(** ** The slot *)

Lemma assign_child_resource_occupied resource location reassign self :
  children self ≠ [] →
  assign_child_resource resource location reassign self =
    (inl CapacityError, self).
Proof.
  intros Hocc. unfold assign_child_resource, attr, raise, mbind, M_bind.
  by destruct (children self).
Qed.

Lemma assign_child_resource_empty resource location reassign self :
  children self = [] →
  assign_child_resource resource location reassign self =
    if isinstance_Plate resource
    then (inr (), holding [resource] self)
    else (inl InvalidCarrierTypeError, self).
Proof.
  intros Hemp.
  unfold assign_child_resource, attr, raise, mbind, M_bind,
    super_assign_child_resource.
  rewrite Hemp. simpl.
  destruct (isinstance_Plate resource); simpl; by rewrite ?Hemp.
Qed.

Lemma get_plate_pure self : (get_plate self).2 = self.
Proof.
  unfold get_plate, attr, raise, mbind, M_bind, mret, M_ret.
  by destruct (children self).
Qed.

Lemma read_children op backend_kwargs self :
  children (read op backend_kwargs self).2 = children self.
Proof.
  destruct (setup_finished self) eqn:Hsetup;
    [|by rewrite read_before_setup].
  destruct (children self) as [|plate cs] eqn:Hcs;
    [by rewrite read_without_plate|].
  rewrite (read_ready _ _ _ _ _ Hsetup Hcs).
  destruct (_check_args _ _ _); [done|].
  by destruct (keyword_arguments _ _).
Qed.

Lemma after_children_le o self :
  (length (children self) ≤ 1)%nat →
  (length (children (after o self)) ≤ 1)%nat.
Proof.
  intros Hle. destruct o as [|resource location reassign| | | |op kw]; simpl.
  - done.
  - destruct (children self) as [|c cs] eqn:Hcs.
    + rewrite assign_child_resource_empty by done.
      destruct (isinstance_Plate resource); simpl; [lia|by rewrite Hcs].
    + rewrite assign_child_resource_occupied by by rewrite Hcs.
      simpl. by rewrite Hcs.
  - by rewrite get_plate_pure.
  - done.
  - done.
  - by rewrite read_children.
Qed.

(** C4.  Assigning a plate while the reader holds nothing succeeds and
    leaves exactly that plate in the reader; assigning anything while the
    reader holds a plate fails with the error that a plate is already there,
    and the instance stays as it was. *)
Theorem assign_plate_to_slot self name resource location reassign :
  (children self = [] →
   assign_child_resource (Plate name) location reassign self =
     (inr (), holding [Plate name] self)) ∧
  (children self ≠ [] →
   assign_child_resource resource location reassign self =
     (inl CapacityError, self)).
Proof.
  split.
  - intros Hemp. by rewrite assign_child_resource_empty.
  - apply assign_child_resource_occupied.
Qed.

(** C5, as amended.  Assigning a resource that is not a plate always fails
    and leaves the instance as it was: with the error that the resource must
    be a plate when the reader holds nothing, and with the error that a
    plate is already there when it holds one, since that check comes
    first. *)
Theorem assign_non_plate self resource location reassign :
  isinstance_Plate resource = false →
  assign_child_resource resource location reassign self =
    (inl (match children self with
          | [] => InvalidCarrierTypeError
          | _ :: _ => CapacityError
          end), self).
Proof.
  intros Hnot. destruct (children self) as [|c cs] eqn:Hcs.
  - by rewrite assign_child_resource_empty, Hnot.
  - by rewrite assign_child_resource_occupied by by rewrite Hcs.
Qed.

(** C6.  After setup, with no plate in the reader, each of the three read
    operations fails with [NoPlateError] whatever keyword arguments the
    caller passed, and the instance is as before: the backend has received
    no call, and [_check_args] was not reached. *)
Theorem read_with_empty_slot op backend_kwargs self :
  setup_finished self = true → children self = [] →
  read op backend_kwargs self = (inl NoCarrierError, self) ∧
  backend_calls (read op backend_kwargs self).2 = backend_calls self.
Proof.
  intros Hsetup Hemp. by rewrite read_without_plate.
Qed.

(** C8.  Starting from a freshly constructed plate reader, after any
    sequence of setups, assignments, plate queries, opens, closes and reads,
    the reader holds no resource or exactly one. *)
Theorem slot_capacity (b : PlateReaderBackend.t float Any)
    (os : list (operation float Any)) :
  length (children (after_all os (__init__ b))) = 0 ∨
  length (children (after_all os (__init__ b))) = 1.
Proof.
  assert (∀ self, (length (children self) ≤ 1)%nat →
            (length (children (after_all os self)) ≤ 1)%nat) as Hinv.
  { unfold after_all. induction os as [|o os IH]; intros self Hle; [done|].
    simpl. by apply IH, after_children_le. }
  specialize (Hinv (__init__ b)). simpl in Hinv. lia.
Qed.

(** C10.  [open] and [close] go straight to the backend in every state of
    the instance, set up or not, holding a plate or not: the outcome is
    whatever the backend's method answers, and the backend has received
    exactly that one call. *)
Theorem open_close_pass_through self :
  open self =
    (PlateReaderBackend.open (backend self) (backend_calls self),
     received PlateReaderBackend.Open self) ∧
  close self =
    (PlateReaderBackend.close (backend self) (backend_calls self),
     received PlateReaderBackend.Close self).
Proof. done. Qed.

End FacadeFacts.

(** ** The claims at concrete backends *)

(** A backend whose [read_absorbance] also requires [gain]: a read without
    extras fails over the missing argument. *)
Lemma missing_required_arguments_witness :
  setup_finished (ready gain_backend [Plate "assay"]) = true ∧
  children (ready gain_backend [Plate "assay"]) ≠ [] ∧
  ∃ missing,
    read (Absorbance 450) [] (ready gain_backend [Plate "assay"]) =
      (inl (MissingArgumentError missing), ready gain_backend [Plate "assay"]).
Proof.
  split; [reflexivity|]. split; [discriminate|].
  apply (proj2 (proj2 (@missing_required_arguments Z Z) (Absorbance 450)
           (ready gain_backend [Plate "assay"]) eq_refl
           ltac:(discriminate))).
  exists "gain". apply elem_of_non_default_of.
  change ("gain" ∈ ({["gain"]} : gset string)). by apply elem_of_singleton.
Defined.

(** The spec's scenario: the backend declares [read_absorbance(wavelength,
    plate)] only, and the caller adds [gain=2]. *)
Lemma unrecognized_arguments_witness :
  ¬ accepts_extra_keywords sig_absorbance ∧
  (∀ arg,
     requires sig_absorbance {["wavelength"; "plate"]} arg →
     arg ∈ keys [("gain", 2%Z)]) ∧
  (∃ arg,
     arg ∈ keys [("gain", 2%Z)] ∧
     ¬ ∃ param, declares sig_absorbance {["wavelength"; "plate"]} arg param) ∧
  ∃ extra,
    (∀ arg,
       arg ∈ extra ↔
       arg ∈ keys [("gain", 2%Z)] ∧
       ¬ ∃ param,
           declares sig_absorbance {["wavelength"; "plate"]} arg param) ∧
    _check_args sig_absorbance [("gain", 2%Z)] {["wavelength"; "plate"]} =
      inl (UnrecognizedArgumentError extra) ∧
    (∀ (op : read_operation Z) (self : t Z Z),
       signature_of op (backend self) = sig_absorbance →
       always_supplied op = {["wavelength"; "plate"]} →
       setup_finished self = true → children self ≠ [] →
       read op [("gain", 2%Z)] self =
         (inl (UnrecognizedArgumentError extra), self)).
Proof.
  assert (¬ accepts_extra_keywords sig_absorbance) as Hno.
  { intros Hacc%vars_keyword_of_nonempty. by apply Hacc. }
  assert (∀ arg,
    requires sig_absorbance {["wavelength"; "plate"]} arg →
    arg ∈ keys [("gain", 2%Z)]) as Hreq.
  { intros arg Hin%elem_of_non_default_of.
    change (arg ∈ (∅ : gset string)) in Hin.
    by apply not_elem_of_empty in Hin. }
  assert (∃ arg,
    arg ∈ keys [("gain", 2%Z)] ∧
    ¬ ∃ param, declares sig_absorbance {["wavelength"; "plate"]} arg param)
    as Hextra.
  { exists "gain". split; [apply list_elem_of_here|].
    intros Hin%elem_of_keys_args_of.
    change ("gain" ∈ ([] : list string)) in Hin.
    by apply not_elem_of_nil in Hin. }
  split; [exact Hno|]. split; [exact Hreq|]. split; [exact Hextra|].
  exact (unrecognized_arguments sig_absorbance [("gain", 2%Z)]
           {["wavelength"; "plate"]} Hno Hreq Hextra).
Defined.

(** C2 as stated fails when a required parameter is missing as well: the
    check for missing arguments comes first and decides the error. *)
Lemma unrecognized_arguments_counterexample :
  ¬ accepts_extra_keywords sig_absorbance_gain ∧
  (∃ arg,
     arg ∈ keys [("speed", 1%Z)] ∧
     ¬ ∃ param,
         declares sig_absorbance_gain {["wavelength"; "plate"]} arg param) ∧
  _check_args sig_absorbance_gain [("speed", 1%Z)] {["wavelength"; "plate"]} =
    inl (MissingArgumentError {["gain"]}) ∧
  ¬ ∃ extra,
      _check_args sig_absorbance_gain [("speed", 1%Z)]
        {["wavelength"; "plate"]} = inl (UnrecognizedArgumentError extra).
Proof.
  split.
  { intros Hacc%vars_keyword_of_nonempty. by apply Hacc. }
  split.
  { exists "speed". split; [apply list_elem_of_here|].
    intros Hin%elem_of_keys_args_of.
    change ("speed" ∈ ["gain"]) in Hin.
    apply list_elem_of_singleton in Hin. discriminate. }
  split; [reflexivity|].
  intros [extra Hfail].
  change (inl (MissingArgumentError {["gain"]}) =
          (inl (UnrecognizedArgumentError extra) : Exception + gset string))
    in Hfail.
  discriminate.
Qed.

(** The spec's scenario: the backend declares [read_luminescence(focal_height,
    plate, **kwargs)], and the caller adds [settle_time_ms=500]. *)
Lemma extra_keywords_forwarded_witness :
  accepts_extra_keywords sig_luminescence_kwargs ∧
  (∀ arg,
     requires sig_luminescence_kwargs {["focal_height"; "plate"]} arg →
     arg ∈ keys [("settle_time_ms", 500%Z)]) ∧
  _check_args sig_luminescence_kwargs [("settle_time_ms", 500%Z)]
    {["focal_height"; "plate"]} = inr ∅ ∧
  read (Luminescence 13%Z) [("settle_time_ms", 500%Z)]
    (ready kwargs_backend [Plate "assay"]) =
    (inr [[1; 2]; [3; 4]]%Z,
     received
       (PlateReaderBackend.Read_luminescence 13%Z (Plate "assay")
          [("settle_time_ms", 500%Z)])
       (ready kwargs_backend [Plate "assay"])).
Proof.
  assert (accepts_extra_keywords sig_luminescence_kwargs) as Hacc.
  { exists "kwargs", variadic_keyword. split; [|reflexivity].
    do 2 apply list_elem_of_further. apply list_elem_of_here. }
  assert (∀ arg,
    requires sig_luminescence_kwargs {["focal_height"; "plate"]} arg →
    arg ∈ keys [("settle_time_ms", 500%Z)]) as Hreq.
  { intros arg Hin%elem_of_non_default_of.
    change (arg ∈ (∅ : gset string)) in Hin.
    by apply not_elem_of_empty in Hin. }
  split; [exact Hacc|]. split; [exact Hreq|].
  destruct (extra_keywords_forwarded (float:=Z) sig_luminescence_kwargs
              [("settle_time_ms", 500%Z)] {["focal_height"; "plate"]}
              Hacc Hreq) as (Hret & _ & Hread).
  split; [exact Hret|].
  apply (Hread (Luminescence 13%Z) (ready kwargs_backend [Plate "assay"])
           (Plate "assay") [] eq_refl eq_refl eq_refl eq_refl).
  apply Forall_cons. split; [|apply Forall_nil_2].
  intros Hin. apply elem_of_cons in Hin as [Heq|Hin]; [discriminate|].
  apply list_elem_of_singleton in Hin. discriminate.
Defined.

(** C3 as stated fails for an extra named [plate]: [_check_args] lets it
    pass, and the call of the backend then has the keyword [plate] twice. *)
Lemma extra_keywords_forwarded_counterexample :
  accepts_extra_keywords sig_luminescence_kwargs ∧
  (∀ arg,
     requires sig_luminescence_kwargs {["focal_height"; "plate"]} arg →
     arg ∈ keys [("plate", 7%Z)]) ∧
  _check_args sig_luminescence_kwargs [("plate", 7%Z)]
    {["focal_height"; "plate"]} = inr ∅ ∧
  read (Luminescence 13%Z) [("plate", 7%Z)]
    (ready kwargs_backend [Plate "assay"]) =
    (inl (TypeError "got multiple values for keyword argument " {["plate"]}),
     ready kwargs_backend [Plate "assay"]) ∧
  backend_calls
    (read (Luminescence 13%Z) [("plate", 7%Z)]
       (ready kwargs_backend [Plate "assay"])).2 = [] ∧
  read (Luminescence 13%Z) [("plate", 7%Z)]
    (ready kwargs_backend [Plate "assay"]) ≠
    (answer_of (Luminescence 13%Z) (ready kwargs_backend [Plate "assay"])
       (Plate "assay") [("plate", 7%Z)],
     received
       (call_of (Luminescence 13%Z) (Plate "assay") [("plate", 7%Z)])
       (ready kwargs_backend [Plate "assay"])).
Proof.
  split.
  { exists "kwargs", variadic_keyword. split; [|reflexivity].
    do 2 apply list_elem_of_further. apply list_elem_of_here. }
  split.
  { intros arg Hin%elem_of_non_default_of.
    change (arg ∈ (∅ : gset string)) in Hin.
    by apply not_elem_of_empty in Hin. }
  split; [reflexivity|].
  assert (read (Luminescence 13%Z) [("plate", 7%Z)]
            (ready kwargs_backend [Plate "assay"]) =
          (inl (TypeError "got multiple values for keyword argument "
                  {["plate"]}),
           ready kwargs_backend [Plate "assay"])) as Hread by reflexivity.
  rewrite Hread. split; [reflexivity|]. split; [reflexivity|].
  by intros [=].
Qed.

(** A plate goes into the empty reader, and a second one is refused. *)
Lemma assign_plate_to_slot_witness :
  children (ready strict_backend []) = [] ∧
  children (ready strict_backend [Plate "assay"]) ≠ [] ∧
  assign_child_resource (Plate "assay") None true (ready strict_backend []) =
    (inr (), ready strict_backend [Plate "assay"]) ∧
  assign_child_resource (Plate "second") None true
    (ready strict_backend [Plate "assay"]) =
    (inl CapacityError, ready strict_backend [Plate "assay"]).
Proof.
  split; [reflexivity|]. split; [discriminate|]. split.
  - exact (proj1 (assign_plate_to_slot (ready strict_backend []) "assay"
                    (Plate "second") None true) eq_refl).
  - exact (proj2 (assign_plate_to_slot (ready strict_backend [Plate "assay"])
                    "assay" (Plate "second") None true) ltac:(discriminate)).
Defined.

(** A lid is refused by the empty reader because it is not a plate. *)
Lemma assign_non_plate_witness :
  isinstance_Plate (NonPlate "lid") = false ∧
  assign_child_resource (NonPlate "lid") None true (ready strict_backend []) =
    (inl InvalidCarrierTypeError, ready strict_backend []).
Proof.
  split; [reflexivity|].
  exact (assign_non_plate (ready strict_backend []) (NonPlate "lid") None true
           eq_refl).
Defined.

(** C5 as stated fails for an occupied reader: the lid is refused because a
    plate is already there, and not because it is not a plate. *)
Lemma assign_non_plate_counterexample :
  isinstance_Plate (NonPlate "lid") = false ∧
  assign_child_resource (NonPlate "lid") None true
    (ready strict_backend [Plate "assay"]) =
    (inl CapacityError, ready strict_backend [Plate "assay"]) ∧
  assign_child_resource (NonPlate "lid") None true
    (ready strict_backend [Plate "assay"]) ≠
    (inl InvalidCarrierTypeError, ready strict_backend [Plate "assay"]).
Proof.
  assert (assign_child_resource (NonPlate "lid") None true
            (ready strict_backend [Plate "assay"]) =
          (inl CapacityError, ready strict_backend [Plate "assay"]))
    as Hassign by reflexivity.
  rewrite Hassign. split; [reflexivity|]. split; [reflexivity|].
  by intros [=].
Qed.

(** The spec's scenario: [read_absorbance(wavelength=450)] with no plate
    assigned. *)
Lemma read_with_empty_slot_witness :
  setup_finished (ready strict_backend []) = true ∧
  children (ready strict_backend []) = [] ∧
  read (Absorbance 450) [("gain", 2%Z)] (ready strict_backend []) =
    (inl NoCarrierError, ready strict_backend []) ∧
  backend_calls
    (read (Absorbance 450) [("gain", 2%Z)] (ready strict_backend [])).2 = [].
Proof.
  split; [reflexivity|]. split; [reflexivity|].
  exact (read_with_empty_slot (Absorbance 450) [("gain", 2%Z)]
           (ready strict_backend []) eq_refl eq_refl).
Defined.

(** The spec's scenario: [read_absorbance(wavelength=450)] with a plate
    assigned reaches the backend once and returns its grid. *)
Lemma read_forwards_to_backend_witness :
  setup_finished (ready strict_backend [Plate "assay"]) = true ∧
  children (ready strict_backend [Plate "assay"]) = [Plate "assay"] ∧
  _check_args sig_absorbance [] {["wavelength"; "plate"]} = inr ∅ ∧
  Forall (λ k, k ∉ ["wavelength"; "plate"]) (keys ([] : Dict Z)) ∧
  (read (Absorbance 450) [] (ready strict_backend [Plate "assay"])).1 =
    inr [[1; 2]; [3; 4]]%Z ∧
  backend_calls
    (read (Absorbance 450) [] (ready strict_backend [Plate "assay"])).2 =
    [PlateReaderBackend.Read_absorbance 450 (Plate "assay") []].
Proof.
  split; [reflexivity|]. split; [reflexivity|]. split; [reflexivity|].
  split; [apply Forall_nil_2|].
  destruct (read_forwards_to_backend (Absorbance 450) []
              (ready strict_backend [Plate "assay"]) (Plate "assay") [] ∅
              eq_refl eq_refl eq_refl (Forall_nil_2 _))
    as (_ & Hanswer & Hcalls & _).
  split; [exact Hanswer | exact Hcalls].
Defined.

(** C7 as stated fails for an extra named [plate] and a backend that takes
    arbitrary keywords: all three checks pass, yet the backend is not
    entered, because the call has the keyword [plate] twice. *)
Lemma read_forwards_to_backend_counterexample :
  setup_finished (ready kwargs_backend [Plate "assay"]) = true ∧
  children (ready kwargs_backend [Plate "assay"]) = [Plate "assay"] ∧
  _check_args sig_absorbance_kwargs [("plate", 7%Z)]
    {["wavelength"; "plate"]} = inr ∅ ∧
  read (Absorbance 450) [("plate", 7%Z)]
    (ready kwargs_backend [Plate "assay"]) =
    (inl (TypeError "got multiple values for keyword argument " {["plate"]}),
     ready kwargs_backend [Plate "assay"]) ∧
  backend_calls
    (read (Absorbance 450) [("plate", 7%Z)]
       (ready kwargs_backend [Plate "assay"])).2 ≠
    [PlateReaderBackend.Read_absorbance 450 (Plate "assay") [("plate", 7%Z)]] ∧
  (read (Absorbance 450) [("plate", 7%Z)]
     (ready kwargs_backend [Plate "assay"])).1 ≠
    answer_of (Absorbance 450) (ready kwargs_backend [Plate "assay"])
      (Plate "assay") [("plate", 7%Z)].
Proof.
  split; [reflexivity|]. split; [reflexivity|]. split; [reflexivity|].
  assert (read (Absorbance 450) [("plate", 7%Z)]
            (ready kwargs_backend [Plate "assay"]) =
          (inl (TypeError "got multiple values for keyword argument "
                  {["plate"]}),
           ready kwargs_backend [Plate "assay"])) as Hread by reflexivity.
  rewrite Hread. split; [reflexivity|]. split; [discriminate|].
  simpl. discriminate.
Qed.

(** The same two keys in either order, with different values. *)
Lemma _check_args_order_independent_witness :
  (∀ arg,
     arg ∈ keys [("gain", 2%Z); ("speed", 1%Z)] ↔
     arg ∈ keys [("speed", 5%Z); ("gain", 3%Z)]) ∧
  _check_args sig_absorbance_gain [("gain", 2%Z); ("speed", 1%Z)]
    {["wavelength"; "plate"]} =
  _check_args sig_absorbance_gain [("speed", 5%Z); ("gain", 3%Z)]
    {["wavelength"; "plate"]}.
Proof.
  assert (∀ arg,
    arg ∈ keys [("gain", 2%Z); ("speed", 1%Z)] ↔
    arg ∈ keys [("speed", 5%Z); ("gain", 3%Z)]) as Hsame.
  { intros arg. unfold keys. simpl.
    rewrite !elem_of_cons, !elem_of_nil. tauto. }
  split; [exact Hsame|].
  exact (_check_args_order_independent sig_absorbance_gain _ _ _ Hsame).
Defined.

(** ** Further facts about [_check_args] *)

Section MoreReconciliationFacts.
Context {Any : Type}.
Implicit Types (sig : Signature Any) (default : gset string).
Implicit Types (backend_kwargs : Dict Any) (arg : string).

(** X1.  Whenever [_check_args] returns, the set of arguments to remove is
    empty, so the loop that pops them leaves the caller's dictionary as it
    was and cannot raise [KeyError]. *)
Theorem _check_args_removes_nothing sig backend_kwargs default extra_args :
  _check_args sig backend_kwargs default = inr extra_args →
  extra_args = ∅ ∧
  pop_each (elements extra_args) backend_kwargs = inr backend_kwargs.
Proof.
  intros Hempty. apply _check_args_returns_empty in Hempty. subst extra_args.
  by rewrite elements_empty.
Qed.

(** X2.  [_check_args] returns, rather than raises, exactly when every
    required parameter is among the caller's keys and, unless the signature
    takes arbitrary keywords, every key of the caller names a declared
    parameter. *)
Theorem _check_args_returns_iff sig backend_kwargs default :
  (∃ extra_args, _check_args sig backend_kwargs default = inr extra_args) ↔
  (∀ arg, requires sig default arg → arg ∈ keys backend_kwargs) ∧
  (accepts_extra_keywords sig ∨
   ∀ arg, arg ∈ keys backend_kwargs → ∃ param, declares sig default arg param).
Proof.
  destruct (_check_args_cases sig backend_kwargs default)
    as [[Hne H]|[(Hm & Hacc & H)|[(Hm & Hno & He & H)|(Hm & Hno & He & H)]]];
    rewrite H.
  - split; [by intros [? ?]|]. intros [Hreq _].
    apply set_choose_L in Hne as [arg [Ha Hout]%elem_of_missing_of].
    by destruct Hout; apply Hreq.
  - split; [|by eexists]. intros _. split; [|by left].
    intros arg Hreq. destruct (decide (arg ∈ keys backend_kwargs)); [done|].
    assert (arg ∈ missing_of sig default backend_kwargs) as Hin
      by by apply elem_of_missing_of.
    rewrite Hm in Hin. by apply not_elem_of_empty in Hin.
  - split; [by intros [? ?]|]. intros [_ [Hacc|Hall]]; [done|].
    apply set_choose_L in He as [arg [Hin Hund]%elem_of_extra_of].
    by destruct Hund; apply Hall.
  - split; [|by eexists]. intros _. split.
    + intros arg Hreq. destruct (decide (arg ∈ keys backend_kwargs)); [done|].
      assert (arg ∈ missing_of sig default backend_kwargs) as Hin
        by by apply elem_of_missing_of.
      rewrite Hm in Hin. by apply not_elem_of_empty in Hin.
    + right. intros arg Hin. apply elem_of_keys_args_of.
      destruct (decide (arg ∈ keys (args_of sig default))) as [|Hout]; [done|].
      assert (arg ∈ extra_of sig default backend_kwargs) as Hex.
      { apply elem_of_extra_of. split; [done|].
        by rewrite <- elem_of_keys_args_of. }
      rewrite He in Hex. by apply not_elem_of_empty in Hex.
Qed.

(** X3.  A parameter of the signature whose name is in the always-supplied
    set, or is [self], is invisible to [_check_args] unless it is the
    variadic-keyword marker: with or without it, and wherever it stands, the
    outcome is the same. *)
Theorem _check_args_ignores_supplied (ps1 ps2 : Dict (Param Any)) arg
    (param : Param Any) backend_kwargs default :
  arg ∈ default ∪ {["self"]} →
  kind param ≠ VAR_KEYWORD →
  _check_args {| parameters := (ps1 ++ (arg, param) :: ps2)%list |}
    backend_kwargs default =
  _check_args {| parameters := (ps1 ++ ps2)%list |} backend_kwargs default.
Proof.
  intros Hin Hkind.
  assert (args_of {| parameters := (ps1 ++ (arg, param) :: ps2)%list |} default =
          args_of {| parameters := (ps1 ++ ps2)%list |} default) as Hargs.
  { unfold args_of. simpl.
    rewrite (filter_app _ ps1), (filter_app _ ps1 ps2).
    rewrite filter_cons_False; [done|]. simpl. by intros Hout. }
  assert (vars_keyword_of {| parameters := (ps1 ++ (arg, param) :: ps2)%list |} =
          vars_keyword_of {| parameters := (ps1 ++ ps2)%list |}) as Hvars.
  { unfold vars_keyword_of. simpl.
    rewrite (filter_app _ ps1), (filter_app _ ps1 ps2).
    by rewrite filter_cons_False. }
  rewrite !_check_args_unfold.
  unfold missing_of, extra_of, non_default_of. by rewrite Hargs, Hvars.
Qed.

End MoreReconciliationFacts.

(** ** Further facts about the front end *)

Section MoreFacadeFacts.
Context {float Any : Type}.
Implicit Types (self : t float Any) (backend_kwargs : Dict Any).
Implicit Types (plate : Resource) (arg : string) (op : read_operation float).

Lemma keyword_arguments_inr (written : list string) backend_kwargs
    backend_kwargs' :
  keyword_arguments written backend_kwargs = inr backend_kwargs' →
  backend_kwargs' = backend_kwargs ∧
  Forall (λ k, k ∉ written) (keys backend_kwargs).
Proof.
  unfold keyword_arguments.
  destruct (List.find _ _) as [k|] eqn:Hfind; [done|].
  intros [= <-]. split; [done|]. apply Forall_forall. intros k Hin Hw.
  apply list_elem_of_In in Hin.
  pose proof (find_none _ _ Hfind k Hin) as Hk. simpl in Hk.
  by apply bool_decide_eq_false in Hk.
Qed.

Lemma keyword_arguments_inl (written : list string) backend_kwargs e :
  keyword_arguments written backend_kwargs = inl e →
  ∃ msg names, e = TypeError msg names.
Proof.
  unfold keyword_arguments. destruct (List.find _ _); [|done].
  intros [= <-]. by eexists _, _.
Qed.

Lemma plate_written_out op : "plate" ∈ written_out op.
Proof.
  destruct op; simpl; rewrite !elem_of_cons; tauto.
Qed.

(** The two ways a read operation can end. *)
Lemma read_cases op backend_kwargs self :
  (∃ plate cs,
     setup_finished self = true ∧ children self = plate :: cs ∧
     _check_args (signature_of op (backend self)) backend_kwargs
       (always_supplied op) = inr ∅ ∧
     Forall (λ k, k ∉ written_out op) (keys backend_kwargs) ∧
     read op backend_kwargs self =
       (answer_of op self plate backend_kwargs,
        received (call_of op plate backend_kwargs) self)) ∨
  (∃ e, raised_by_front_end e ∧ read op backend_kwargs self = (inl e, self)).
Proof.
  destruct (setup_finished self) eqn:Hsetup.
  2: { right. exists LifecycleNotReadyError.
       split; [by left | by apply read_before_setup]. }
  destruct (children self) as [|plate cs] eqn:Hcs.
  { right. exists NoCarrierError.
    split; [by right; left | by apply read_without_plate]. }
  rewrite (read_ready _ _ _ _ _ Hsetup Hcs).
  destruct (_check_args _ _ _) as [e|extra_args] eqn:Hcheck.
  { right. exists e. split; [|done]. right; right.
    destruct (_check_args_cases (signature_of op (backend self))
                backend_kwargs (always_supplied op))
      as [[_ H]|[(_ & _ & H)|[(_ & _ & _ & H)|(_ & _ & _ & H)]]];
      rewrite H in Hcheck; try discriminate;
      injection Hcheck as <-; by eexists _, _. }
  pose proof (_check_args_returns_empty _ _ _ _ Hcheck) as ->.
  destruct (keyword_arguments _ _) as [e|backend_kwargs'] eqn:Hkw.
  - right. exists e. split; [|done]. right; right.
    by apply keyword_arguments_inl in Hkw.
  - apply keyword_arguments_inr in Hkw as [-> Hdis].
    left. by exists plate, cs.
Qed.

(** X4.  A caller who passes [plate] among the keyword arguments of a read
    operation never reaches the backend: the operation fails and leaves the
    instance as it was, whatever the backend's signature.  After setup and
    with a plate in the reader, the failure is a [TypeError]. *)
Theorem caller_supplied_plate_rejected op backend_kwargs self :
  "plate" ∈ keys backend_kwargs →
  ∃ e,
    read op backend_kwargs self = (inl e, self) ∧
    raised_by_front_end e ∧
    (setup_finished self = true → children self ≠ [] →
     ∃ msg names, e = TypeError msg names).
Proof.
  intros Hplate.
  destruct (setup_finished self) eqn:Hsetup.
  2: { exists LifecycleNotReadyError.
       split; [by apply read_before_setup|]. split; [by left | done]. }
  destruct (children self) as [|plate cs] eqn:Hcs.
  { exists NoCarrierError.
    split; [by apply read_without_plate|]. split; [by right; left | done]. }
  destruct (read_cases op backend_kwargs self)
    as [(plate' & cs' & _ & _ & _ & Hdis & _)|(e & Hkind & Hread)].
  { rewrite Forall_forall in Hdis.
    destruct (Hdis _ Hplate (plate_written_out op)). }
  exists e. split; [done|]. split; [done|]. intros _ _.
  destruct Hkind as [->|[->|Hte]]; [| |done].
  - rewrite (read_ready _ _ _ _ _ Hsetup Hcs) in Hread.
    destruct (_check_args _ _ _) as [e|?] eqn:Hcheck.
    + injection Hread as ->.
      destruct (_check_args_cases (signature_of op (backend self))
                  backend_kwargs (always_supplied op))
        as [[_ H]|[(_ & _ & H)|[(_ & _ & _ & H)|(_ & _ & _ & H)]]];
        rewrite H in Hcheck; discriminate.
    + destruct (keyword_arguments _ _) as [e|?] eqn:Hkw.
      * injection Hread as ->. by apply keyword_arguments_inl in Hkw.
      * injection Hread as Hans Habs. by apply received_neq in Habs.
  - rewrite (read_ready _ _ _ _ _ Hsetup Hcs) in Hread.
    destruct (_check_args _ _ _) as [e|?] eqn:Hcheck.
    + injection Hread as ->.
      destruct (_check_args_cases (signature_of op (backend self))
                  backend_kwargs (always_supplied op))
        as [[_ H]|[(_ & _ & H)|[(_ & _ & _ & H)|(_ & _ & _ & H)]]];
        rewrite H in Hcheck; discriminate.
    + destruct (keyword_arguments _ _) as [e|?] eqn:Hkw.
      * injection Hread as ->. by apply keyword_arguments_inl in Hkw.
      * injection Hread as Hans Habs. by apply received_neq in Habs.
Qed.

(** X5.  A read operation ends in one of two ways.  Either setup has
    finished, the reader holds a plate, [_check_args] passes and no keyword
    is repeated: then the backend is called once, with the first child as
    the plate and the caller's keyword arguments as they are, and its answer
    is the outcome.  Or the operation raises a lifecycle error, a
    [NoPlateError] or a [TypeError] and leaves the instance as it was; it
    never raises [KeyError] or [IndexError]. *)
Theorem read_outcome op backend_kwargs self :
  (∃ plate cs,
     setup_finished self = true ∧ children self = plate :: cs ∧
     _check_args (signature_of op (backend self)) backend_kwargs
       (always_supplied op) = inr ∅ ∧
     Forall (λ k, k ∉ written_out op) (keys backend_kwargs) ∧
     read op backend_kwargs self =
       (answer_of op self plate backend_kwargs,
        received (call_of op plate backend_kwargs) self)) ∨
  (∃ e, raised_by_front_end e ∧ read op backend_kwargs self = (inl e, self)).
Proof. apply read_cases. Qed.

(** X6.  No operation of the front end calls the backend more than once,
    and none rewrites what the backend has already received: setup,
    assignment and the plate query make no call, [open] and [close] make
    exactly their one call, and a read makes one call or none. *)
Theorem backend_called_at_most_once (o : operation float Any) self :
  ∃ new,
    backend_calls (after o self) = (backend_calls self ++ new)%list ∧
    (length new ≤ 1)%nat ∧
    match o with
    | Setup | Assign_child_resource _ _ _ | Get_plate => new = []
    | Open => new = [PlateReaderBackend.Open]
    | Close => new = [PlateReaderBackend.Close]
    | Read _ _ => True
    end.
Proof.
  destruct o as [|resource location reassign| | | |op kw]; simpl.
  - exists []. rewrite app_nil_r. simpl. split_and!; [done|lia|done].
  - exists []. rewrite app_nil_r. simpl. split_and!; [|lia|done].
    destruct (children self) as [|c cs] eqn:Hcs.
    + rewrite assign_child_resource_empty by done.
      by destruct (isinstance_Plate resource).
    + by rewrite assign_child_resource_occupied by by rewrite Hcs.
  - exists []. rewrite app_nil_r, get_plate_pure. simpl.
    split_and!; [done|lia|done].
  - exists [PlateReaderBackend.Open]. simpl. split_and!; [done|lia|done].
  - exists [PlateReaderBackend.Close]. simpl. split_and!; [done|lia|done].
  - destruct (read_cases op kw self)
      as [(plate & cs & _ & _ & _ & _ & ->)|(e & _ & ->)].
    + exists [call_of op plate kw]. simpl. split_and!; [done|lia|done].
    + exists []. rewrite app_nil_r. simpl. split_and!; [done|lia|done].
Qed.

(** X7.  No operation replaces the backend.  Only an assignment can change
    what the reader holds, and it leaves the setup flag alone; the plate
    query changes nothing at all; [open], [close] and the reads leave both
    the slot and the setup flag as they were. *)
Theorem operations_frame (o : operation float Any) self :
  backend (after o self) = backend self ∧
  match o with
  | Setup => children (after o self) = children self
  | Assign_child_resource _ _ _ =>
      setup_finished (after o self) = setup_finished self
  | Get_plate => after o self = self
  | Open | Close | Read _ _ =>
      children (after o self) = children self ∧
      setup_finished (after o self) = setup_finished self
  end.
Proof.
  destruct o as [|resource location reassign| | | |op kw]; simpl.
  - done.
  - destruct (children self) as [|c cs] eqn:Hcs.
    + rewrite assign_child_resource_empty by done.
      by destruct (isinstance_Plate resource).
    + by rewrite assign_child_resource_occupied by by rewrite Hcs.
  - by rewrite get_plate_pure.
  - done.
  - done.
  - destruct (read_cases op kw self)
      as [(plate & cs & _ & _ & _ & _ & ->)|(e & _ & ->)]; done.
Qed.

Lemma after_only_plates (o : operation float Any) self :
  Forall (λ r, isinstance_Plate r = true) (children self) →
  Forall (λ c, ∀ plate, plate_of_call c = Some plate →
               isinstance_Plate plate = true) (backend_calls self) →
  Forall (λ r, isinstance_Plate r = true) (children (after o self)) ∧
  Forall (λ c, ∀ plate, plate_of_call c = Some plate →
               isinstance_Plate plate = true) (backend_calls (after o self)).
Proof.
  intros Hcs Hcalls.
  destruct o as [|resource location reassign| | | |op kw]; simpl.
  - done.
  - destruct (children self) as [|c cs] eqn:Hchildren.
    + rewrite assign_child_resource_empty by done.
      destruct (isinstance_Plate resource) eqn:Hplate; simpl.
      * split; [|done]. by apply Forall_singleton.
      * by rewrite Hchildren.
    + rewrite assign_child_resource_occupied by by rewrite Hchildren.
      simpl. by rewrite Hchildren.
  - by rewrite get_plate_pure.
  - split; [done|]. apply Forall_app. split; [done|].
    by apply Forall_singleton.
  - split; [done|]. apply Forall_app. split; [done|].
    by apply Forall_singleton.
  - destruct (read_cases op kw self)
      as [(plate & cs & _ & Hchildren & _ & _ & ->)|(e & _ & ->)]; [|done].
    simpl. split; [done|]. apply Forall_app. split; [done|].
    apply Forall_singleton. intros plate' Hcall.
    rewrite Hchildren in Hcs. apply Forall_cons in Hcs as [Hplate _].
    destruct op; simpl in Hcall; by injection Hcall as <-.
Qed.

(** X8.  Starting from a freshly constructed plate reader, after any
    sequence of operations every resource in the reader is a [Plate], and
    every read call that the backend has received carried a [Plate]: the
    type check of the assignment is what makes the cast in [get_plate]
    sound. *)
Theorem only_plates (b : PlateReaderBackend.t float Any)
    (os : list (operation float Any)) :
  Forall (λ r, isinstance_Plate r = true)
    (children (after_all os (__init__ b))) ∧
  Forall (λ c, ∀ plate, plate_of_call c = Some plate →
               isinstance_Plate plate = true)
    (backend_calls (after_all os (__init__ b))).
Proof.
  assert (∀ self,
    Forall (λ r, isinstance_Plate r = true) (children self) →
    Forall (λ c, ∀ plate, plate_of_call c = Some plate →
                 isinstance_Plate plate = true) (backend_calls self) →
    Forall (λ r, isinstance_Plate r = true) (children (after_all os self)) ∧
    Forall (λ c, ∀ plate, plate_of_call c = Some plate →
                 isinstance_Plate plate = true)
      (backend_calls (after_all os self))) as Hinv.
  { unfold after_all. induction os as [|o os IH]; intros self Hcs Hcalls.
    - done.
    - simpl. destruct (after_only_plates o self Hcs Hcalls). by apply IH. }
  apply Hinv; simpl; apply Forall_nil_2.
Qed.

(** X9.  A plate assigned to an empty reader is the plate that [get_plate]
    then returns, and the query changes nothing. *)
Theorem assign_then_get_plate self name location reassign :
  children self = [] →
  get_plate (assign_child_resource (Plate name) location reassign self).2 =
    (inr (Plate name), holding [Plate name] self).
Proof.
  intros Hemp. by rewrite assign_child_resource_empty.
Qed.

(** X10.  Before setup has finished, each of the three read operations
    fails with the lifecycle error, whatever the reader holds and whatever
    the caller passes, and the backend receives nothing. *)
Theorem read_before_setup_fails op backend_kwargs self :
  setup_finished self = false →
  read op backend_kwargs self = (inl LifecycleNotReadyError, self) ∧
  backend_calls (read op backend_kwargs self).2 = backend_calls self.
Proof.
  intros Hsetup. by rewrite read_before_setup.
Qed.

Lemma after_occupied (o : operation float Any) self plate cs :
  children self = plate :: cs → children (after o self) = plate :: cs.
Proof.
  intros Hcs. destruct o as [|resource location reassign| | | |op kw]; simpl.
  - done.
  - by rewrite assign_child_resource_occupied by by rewrite Hcs.
  - by rewrite get_plate_pure.
  - done.
  - done.
  - by rewrite read_children.
Qed.

(** X11.  Once the reader holds a plate, no sequence of operations of the
    front end removes or replaces it: later assignments are refused and
    everything else leaves the slot alone. *)
Theorem plate_stays (os : list (operation float Any)) self plate cs :
  children self = plate :: cs →
  children (after_all os self) = plate :: cs.
Proof.
  unfold after_all. revert self.
  induction os as [|o os IH]; intros self Hcs; [done|].
  simpl. by apply IH, after_occupied.
Qed.

Lemma after_not_set_up (o : operation float Any) self :
  o ≠ Setup →
  setup_finished self = false →
  Forall (λ c, plate_of_call c = None) (backend_calls self) →
  setup_finished (after o self) = false ∧
  Forall (λ c, plate_of_call c = None) (backend_calls (after o self)).
Proof.
  intros Ho Hsetup Hcalls.
  destruct o as [|resource location reassign| | | |op kw]; simpl.
  - done.
  - destruct (children self) as [|c cs] eqn:Hcs.
    + rewrite assign_child_resource_empty by done.
      by destruct (isinstance_Plate resource).
    + by rewrite assign_child_resource_occupied by by rewrite Hcs.
  - by rewrite get_plate_pure.
  - split; [done|]. apply Forall_app. split; [done|].
    by apply Forall_singleton.
  - split; [done|]. apply Forall_app. split; [done|].
    by apply Forall_singleton.
  - by rewrite read_before_setup.
Qed.

(** X12.  As long as [setup] has not been called on a freshly constructed
    plate reader, the backend receives no read call, whatever else is done
    with the reader: only [open] and [close] get through. *)
Theorem no_read_reaches_backend_before_setup
    (b : PlateReaderBackend.t float Any) (os : list (operation float Any)) :
  Setup ∉ os →
  Forall (λ c, plate_of_call c = None)
    (backend_calls (after_all os (__init__ b))).
Proof.
  intros Hno.
  assert (∀ self,
    setup_finished self = false →
    Forall (λ c, plate_of_call c = None) (backend_calls self) →
    Forall (λ c, plate_of_call c = None) (backend_calls (after_all os self)))
    as Hinv.
  { unfold after_all. induction os as [|o os IH]; intros self Hsetup Hcalls.
    - done.
    - apply not_elem_of_cons in Hno as [Ho Hno]. simpl.
      destruct (after_not_set_up o self) as [Hsetup' Hcalls']; [done..|].
      by apply IH. }
  apply Hinv; [done|]. simpl. apply Forall_nil_2.
Qed.

End MoreFacadeFacts.

(** ** The further facts at concrete backends *)

Lemma _check_args_removes_nothing_witness :
  _check_args sig_absorbance [] {["wavelength"; "plate"]} = inr ∅ ∧
  (∅ : gset string) = ∅ ∧
  pop_each (elements (∅ : gset string)) ([] : Dict Z) = inr [].
Proof.
  split; [reflexivity|].
  exact (_check_args_removes_nothing sig_absorbance []
           {["wavelength"; "plate"]} ∅ eq_refl).
Defined.

(** [self], written out by an unbound method, makes no difference. *)
Lemma _check_args_ignores_supplied_witness :
  "self" ∈ ({["wavelength"; "plate"]} : gset string) ∪ {["self"]} ∧
  kind required_parameter ≠ VAR_KEYWORD ∧
  _check_args
    {| parameters :=
         [("self", required_parameter); ("plate", required_parameter);
          ("wavelength", required_parameter); ("gain", required_parameter)] |}
    [("gain", 2%Z)] {["wavelength"; "plate"]} =
  _check_args sig_absorbance_gain [("gain", 2%Z)] {["wavelength"; "plate"]}.
Proof.
  assert ("self" ∈ ({["wavelength"; "plate"]} : gset string) ∪ {["self"]})
    as Hin.
  { apply elem_of_union_r. by apply elem_of_singleton. }
  assert (kind required_parameter ≠ VAR_KEYWORD) as Hkind by discriminate.
  split; [exact Hin|]. split; [exact Hkind|].
  exact (_check_args_ignores_supplied [] (parameters sig_absorbance_gain)
           "self" required_parameter [("gain", 2%Z)]
           {["wavelength"; "plate"]} Hin Hkind).
Defined.

(** A caller passes [plate] to a backend that declares no such freedom. *)
Lemma caller_supplied_plate_rejected_witness :
  "plate" ∈ keys [("plate", 7%Z)] ∧
  ∃ e,
    read (Fluorescence 485 520 13%Z) [("plate", 7%Z)]
      (ready strict_backend [Plate "assay"]) =
      (inl e, ready strict_backend [Plate "assay"]) ∧
    raised_by_front_end e ∧
    (setup_finished (ready strict_backend [Plate "assay"]) = true →
     children (ready strict_backend [Plate "assay"]) ≠ [] →
     ∃ msg names, e = TypeError msg names).
Proof.
  assert ("plate" ∈ keys [("plate", 7%Z)]) as Hin by apply list_elem_of_here.
  split; [exact Hin|].
  exact (caller_supplied_plate_rejected (Fluorescence 485 520 13%Z)
           [("plate", 7%Z)] (ready strict_backend [Plate "assay"]) Hin).
Defined.

Lemma assign_then_get_plate_witness :
  children (ready strict_backend []) = [] ∧
  get_plate
    (assign_child_resource (Plate "assay") None true
       (ready strict_backend [])).2 =
    (inr (Plate "assay"), ready strict_backend [Plate "assay"]).
Proof.
  split; [reflexivity|].
  exact (assign_then_get_plate (ready strict_backend []) "assay" None true
           eq_refl).
Defined.

(** A read on the freshly constructed reader. *)
Lemma read_before_setup_fails_witness :
  setup_finished (__init__ strict_backend) = false ∧
  read (Absorbance 450) [] (__init__ strict_backend) =
    (inl LifecycleNotReadyError, __init__ strict_backend) ∧
  backend_calls (read (Absorbance 450) [] (__init__ strict_backend)).2 = [].
Proof.
  split; [reflexivity|].
  exact (read_before_setup_fails (Absorbance 450) []
           (__init__ strict_backend) eq_refl).
Defined.

(** A second plate, a lid, a read that fails and one that succeeds: the
    first plate is still there. *)
Lemma plate_stays_witness :
  children (ready strict_backend [Plate "assay"]) = [Plate "assay"] ∧
  children
    (after_all
       [Assign_child_resource (Plate "second") None true;
        Assign_child_resource (NonPlate "lid") None false;
        Read (Absorbance 450) [("gain", 2%Z)];
        Read (Absorbance 450) []; Close]
       (ready strict_backend [Plate "assay"])) = [Plate "assay"].
Proof.
  split; [reflexivity|].
  exact (plate_stays _ (ready strict_backend [Plate "assay"]) (Plate "assay")
           [] eq_refl).
Defined.

(** A plate is assigned and read from, but setup was never called. *)
Lemma no_read_reaches_backend_before_setup_witness :
  ((Setup : operation Z Z) ∉
    [Open; Assign_child_resource (Plate "assay") None true;
     Read (Luminescence 13%Z) []; Close]) ∧
  Forall (λ c, plate_of_call c = None)
    (backend_calls
       (after_all
          [Open; Assign_child_resource (Plate "assay") None true;
           Read (Luminescence 13%Z) []; Close]
          (__init__ strict_backend))).
Proof.
  assert ((Setup : operation Z Z) ∉
    [Open; Assign_child_resource (Plate "assay") None true;
     Read (Luminescence 13%Z) []; Close]) as Hno.
  { rewrite !not_elem_of_cons. split_and!; try discriminate.
    apply not_elem_of_nil. }
  split; [exact Hno|].
  exact (no_read_reaches_backend_before_setup strict_backend _ Hno).
Defined.

End PlateReader.
